(** * A shallow embedding of [TOOLS API CALLS/1-basic.py]

    The script reads [OPENAI_API_KEY] from the environment, builds an
    [OpenAI] client, issues one [client.chat.completions.create] call with a
    fixed model name and a fixed two-message conversation, indexes the first
    choice of the completion and prints its message content.

    The program is modelled in a small state-and-error monad: the state is
    the trace of observable effects (environment reads, outbound requests,
    writes to standard output), the error is the Python exception that
    escapes to the runtime.  The hosted service is an arbitrary function
    from the request (credential and keyword arguments) to either an API
    error or a completion; the [create] call is one call of that function. *)

From Stdlib Require Import String List Bool.
Import ListNotations.
Open Scope string_scope.
Open Scope list_scope.

Module Basic.

(** ** Data of the request *)

(** A message of the request is a Python dict [{"role": ..., "content": ...}],
    kept as an association list of its items in insertion order. *)
Definition message_param := list (string * string).

(** Values passed as keyword arguments to [create]. *)
Inductive arg :=
| AStr (s : string)
| AMessages (ms : list message_param).

(** The keyword arguments of a call, in the order they are written. *)
Definition kwargs := list (string * arg).

Fixpoint kwarg (name : string) (kw : kwargs) : option arg :=
  match kw with
  | [] => None
  | (n, v) :: rest => if String.eqb n name then Some v else kwarg name rest
  end.

(** ** Data of the response (the SDK's [ChatCompletion]) *)

(** [ChatCompletionMessage.content] is [Optional[str]]. *)
Record chat_message := mk_chat_message { content : option string }.

Record choice := mk_choice { message : chat_message }.

Record chat_completion := mk_chat_completion { choices : list choice }.

(** Errors the SDK raises out of [create]: transport failure, rejection by
    the service (authentication or any other status), and a response its
    parsing rejects. *)
Inductive api_error :=
| APIConnectionError
| AuthenticationError
| APIStatusError (status : nat)
| APIResponseValidationError.

(** Python exceptions that can escape the script. *)
Inductive exn :=
| OpenAIError                (* raised by the client constructor *)
| APIError (e : api_error)   (* raised by [create] *)
| IndexError.                (* raised by [choices[0]] *)

(** Observable effects. *)
Inductive event :=
| EvGetenv (name : string)
| EvRequest (api_key : string) (kw : kwargs)
| EvStdout (text : string).

Inductive result (A : Type) :=
| Ok (a : A)
| Err (e : exn).
Arguments Ok {A} a.
Arguments Err {A} e.

(** ** The monad: trace threading with Python exceptions *)

Definition M (A : Type) := list event -> result A * list event.

Definition ret {A} (a : A) : M A := fun tr => (Ok a, tr).

Definition bind {A B} (m : M A) (f : A -> M B) : M B :=
  fun tr =>
    match m tr with
    | (Ok a, tr') => f a tr'
    | (Err e, tr') => (Err e, tr')
    end.

Definition raise {A} (e : exn) : M A := fun tr => (Err e, tr).

Definition emit (ev : event) : M unit := fun tr => (Ok tt, tr ++ [ev]).

Notation "x <- m ;; k" := (bind m (fun x => k))
  (at level 61, m at next level, right associativity).
Notation "m ;;; k" := (bind m (fun _ => k))
  (at level 61, right associativity).

(** ** The environment, the service and the runtime *)

(** [os.environ]: the value of each variable, if set. *)
Definition environ := string -> option string.

(** The hosted chat-completion service, as seen through one SDK call. *)
Definition service := string -> kwargs -> api_error + chat_completion.

(** [os.getenv(name)]: the value, or [None]. *)
Definition getenv (env : environ) (name : string) : M (option string) :=
  emit (EvGetenv name) ;;; ret (env name).

(** [str(x)] for [x : Optional[str]]. *)
Definition py_str (x : option string) : string :=
  match x with
  | None => "None"
  | Some s => s
  end.

(** [print(x)]: [str(x)] followed by the default [end="\n"]. *)
Definition newline : string := String (Ascii.ascii_of_nat 10) EmptyString.

Definition print (x : option string) : M unit :=
  emit (EvStdout (String.append (py_str x) newline)).

(** [l[i]] for a non-negative index: the element, or [IndexError]. *)
Definition py_index {A} (l : list A) (i : nat) : M A :=
  match nth_error l i with
  | Some x => ret x
  | None => raise IndexError
  end.

(** ** The SDK entry points the script uses *)

Record client := mk_client { client_api_key : string }.

(** [OpenAI(api_key=...)]: a missing key falls back to the same
    environment variable, and is an [OpenAIError] if it is still missing.
    The key is otherwise stored as given. *)
Definition OpenAI (env : environ) (api_key : option string) : M client :=
  k <- match api_key with
       | Some k => ret (Some k)
       | None => getenv env "OPENAI_API_KEY"
       end ;;
  match k with
  | None => raise OpenAIError
  | Some k => ret (mk_client k)
  end.

(** [client.chat.completions.create(model=..., messages=...)]: one outbound
    request.  Transport-level behaviour inside the SDK (its own default
    retries, timeouts) is part of the service function, not of this step. *)
Definition create (svc : service) (c : client) (kw : kwargs)
  : M chat_completion :=
  emit (EvRequest (client_api_key c) kw) ;;;
  match svc (client_api_key c) kw with
  | inl e => raise (APIError e)
  | inr cc => ret cc
  end.

(** ** The script *)

Definition system_message : message_param :=
  [("role", "system"); ("content", "You're a helpful assistant.")].

Definition user_message : message_param :=
  [("role", "user");
   ("content", "Write a limerick about the Python programming language.")].

Definition create_kwargs : kwargs :=
  [("model", AStr "gpt-4o");
   ("messages", AMessages [system_message; user_message])].

Definition main (env : environ) (svc : service) : M unit :=
  key <- getenv env "OPENAI_API_KEY" ;;
  client <- OpenAI env key ;;
  completion <- create svc client create_kwargs ;;
  ch <- py_index (choices completion) 0 ;;
  let response := content (message ch) in
  print response.

(** Running the script as a process, from an empty trace. *)
Definition run (env : environ) (svc : service) : result unit * list event :=
  main env svc [].

(** An uncaught exception ends the interpreter with status 1. *)
Definition exit_code (r : result unit) : nat :=
  match r with
  | Ok _ => 0
  | Err _ => 1
  end.

(** ** Observations of a trace *)

Fixpoint stdout_of (tr : list event) : string :=
  match tr with
  | [] => EmptyString
  | EvStdout s :: rest => String.append s (stdout_of rest)
  | _ :: rest => stdout_of rest
  end.

Fixpoint requests_of (tr : list event) : list (string * kwargs) :=
  match tr with
  | [] => []
  | EvRequest k kw :: rest => (k, kw) :: requests_of rest
  | _ :: rest => requests_of rest
  end.

Fixpoint getenv_count (name : string) (tr : list event) : nat :=
  match tr with
  | [] => 0
  | EvGetenv n :: rest =>
      (if String.eqb n name then 1 else 0) + getenv_count name rest
  | _ :: rest => getenv_count name rest
  end.

(** The trace with the credential of each request blanked out. *)
Definition erase_key (ev : event) : event :=
  match ev with
  | EvRequest _ kw => EvRequest EmptyString kw
  | ev => ev
  end.

(** What the script looks at in a response: the first choice, if any. *)
Definition first_choice_view (r : api_error + chat_completion)
  : api_error + option choice :=
  match r with
  | inl e => inl e
  | inr cc => inr (hd_error (choices cc))
  end.

(** The fixed conversation, written out as the spec describes it. *)
Definition spec_messages : list (list (string * string)) :=
  [[("role", "system"); ("content", "You're a helpful assistant.")];
   [("role", "user");
    ("content", "Write a limerick about the Python programming language.")]].

(** The keyword arguments of the request as the spec describes them. *)
Definition spec_kwargs : kwargs :=
  [("model", AStr "gpt-4o"); ("messages", AMessages spec_messages)].

(** Concrete environments and services used by the witnesses. *)
Definition KEY := "OPENAI_API_KEY".

Definition env_with (k : string) : environ :=
  fun n => if String.eqb n KEY then Some k else None.

Definition env_empty : environ := fun _ => None.

Definition svc_const (r : api_error + chat_completion) : service :=
  fun _ _ => r.

Definition one_choice (c : option string) : chat_completion :=
  mk_chat_completion [mk_choice (mk_chat_message c)].

(** ** Unfolding the script *)

Lemma run_no_key (env : environ) (svc : service) :
  env KEY = None ->
  run env svc = (Err OpenAIError, [EvGetenv KEY; EvGetenv KEY]).
Proof.
  intros H. unfold KEY in H.
  cbv [run main getenv OpenAI create py_index print bind emit ret raise app].
  rewrite H. reflexivity.
Qed.

Lemma run_with_key (env : environ) (svc : service) (k : string) :
  env KEY = Some k ->
  run env svc =
    match svc k create_kwargs with
    | inl e => (Err (APIError e), [EvGetenv KEY; EvRequest k create_kwargs])
    | inr cc =>
        match choices cc with
        | [] => (Err IndexError, [EvGetenv KEY; EvRequest k create_kwargs])
        | ch :: _ =>
            (Ok tt, [EvGetenv KEY; EvRequest k create_kwargs;
                     EvStdout (String.append (py_str (content (message ch))) newline)])
        end
    end.
Proof.
  intros H. unfold KEY in H.
  cbv [run main getenv OpenAI create py_index print bind emit ret raise app].
  rewrite H. cbn [client_api_key].
  destruct (svc k create_kwargs) as [e | [[ | ch rest]]]; reflexivity.
Qed.

Lemma newline_nonempty (s : string) : String.append s newline <> EmptyString.
Proof. destruct s; discriminate. Qed.

Lemma append_EmptyString_r (s : string) : String.append s EmptyString = s.
Proof. induction s as [ | c s IH]; simpl; [reflexivity | now rewrite IH]. Qed.

Lemma create_kwargs_spec : create_kwargs = spec_kwargs.
Proof. reflexivity. Qed.

Ltac run_key H :=
  rewrite (run_with_key _ _ _ H).

(** ** The claims *)

(** C1: on every invocation, every request sent carries the messages
    argument [[system: "You're a helpful assistant."], [user: "Write a
    limerick about the Python programming language."]], in this order and
    for every environment and every service. *)
Theorem request_messages_fixed (env : environ) (svc : service) :
  Forall (fun r => kwarg "messages" (snd r) = Some (AMessages spec_messages))
    (requests_of (snd (run env svc))).
Proof.
  destruct (env KEY) as [k | ] eqn:H.
  - run_key H. destruct (svc k create_kwargs) as [e | [[ | ch rest]]];
      simpl; repeat constructor.
  - rewrite (run_no_key _ _ H). simpl. constructor.
Qed.

(** C2: only the first choice of a completion matters: two services that
    agree on errors and on the first choice of every completion give the
    same outcome and the same trace, whatever further choices they add. *)
Theorem only_first_choice_read (env : environ) (svc1 svc2 : service) :
  (forall k kw, first_choice_view (svc1 k kw) = first_choice_view (svc2 k kw)) ->
  run env svc1 = run env svc2.
Proof.
  intros Hv. destruct (env KEY) as [k | ] eqn:H.
  - run_key H. run_key H. specialize (Hv k create_kwargs).
    destruct (svc1 k create_kwargs) as [e1 | [[ | ch1 r1]]],
             (svc2 k create_kwargs) as [e2 | [[ | ch2 r2]]];
      simpl in Hv; try discriminate Hv; inversion Hv; reflexivity.
  - rewrite (run_no_key _ _ H), (run_no_key _ _ H). reflexivity.
Qed.

Lemma only_first_choice_read_witness :
  (forall k kw,
     first_choice_view (svc_const (inr (one_choice (Some "limerick"))) k kw) =
     first_choice_view
       (svc_const (inr (mk_chat_completion
          [mk_choice (mk_chat_message (Some "limerick"));
           mk_choice (mk_chat_message (Some "another"))])) k kw)) /\
  run (env_with "sk-test") (svc_const (inr (one_choice (Some "limerick")))) =
  run (env_with "sk-test")
    (svc_const (inr (mk_chat_completion
       [mk_choice (mk_chat_message (Some "limerick"));
        mk_choice (mk_chat_message (Some "another"))]))).
Proof.
  split.
  - intros; reflexivity.
  - apply only_first_choice_read. intros; reflexivity.
Defined.

(** C3 as stated fails: when the first choice's content is [None] the call
    succeeds, yet standard output is [None] and a newline, which is not the
    verbatim text of any returned content. *)
Lemma stdout_verbatim_counterexample :
  ~ (forall env svc k cc ch rest,
       env KEY = Some k -> svc k create_kwargs = inr cc ->
       choices cc = ch :: rest -> fst (run env svc) = Ok tt ->
       exists s, content (message ch) = Some s /\
                 stdout_of (snd (run env svc)) = String.append s newline).
Proof.
  intros Hc.
  destruct (Hc (env_with "sk-test") (svc_const (inr (one_choice None)))
              "sk-test" (one_choice None) (mk_choice (mk_chat_message None)) []
              eq_refl eq_refl eq_refl eq_refl) as [s [Hs _]].
  discriminate Hs.
Qed.

(** C3 (amended): on a successful call whose first choice is [ch], the
    call ends normally and standard output is exactly one write: the
    content [s] followed by one newline when the content is a string [s],
    and the text [None] followed by one newline when the content is
    [None]; nothing else is written. *)
Theorem stdout_is_first_content (env : environ) (svc : service) (k : string)
    (cc : chat_completion) (ch : choice) (rest : list choice) :
  env KEY = Some k -> svc k create_kwargs = inr cc ->
  choices cc = ch :: rest ->
  fst (run env svc) = Ok tt /\
  stdout_of (snd (run env svc)) =
    match content (message ch) with
    | Some s => String.append s newline
    | None => String.append "None" newline
    end.
Proof.
  intros Hk Hs Hc. run_key Hk. rewrite Hs, Hc. simpl.
  rewrite append_EmptyString_r. split; [reflexivity | ].
  destruct (content (message ch)); reflexivity.
Qed.

Lemma stdout_is_first_content_witness :
  fst (run (env_with "sk-test") (svc_const (inr (one_choice (Some "limerick")))))
    = Ok tt /\
  stdout_of (snd (run (env_with "sk-test")
                 (svc_const (inr (one_choice (Some "limerick"))))))
    = String.append "limerick" newline.
Proof.
  apply (stdout_is_first_content (env_with "sk-test")
           (svc_const (inr (one_choice (Some "limerick")))) "sk-test"
           (one_choice (Some "limerick"))
           (mk_choice (mk_chat_message (Some "limerick"))) []);
    reflexivity.
Defined.

(** C4: when [OPENAI_API_KEY] is unset, the client constructor raises
    [OpenAIError] right after the two environment reads (the script's and
    the constructor's fallback): no request is issued and nothing is
    written to standard output. *)
Theorem missing_key_fails_first (env : environ) (svc : service) :
  env KEY = None ->
  fst (run env svc) = Err OpenAIError /\
  snd (run env svc) = [EvGetenv KEY; EvGetenv KEY] /\
  requests_of (snd (run env svc)) = [] /\
  stdout_of (snd (run env svc)) = EmptyString.
Proof.
  intros H. rewrite (run_no_key _ _ H). repeat split.
Qed.

Lemma missing_key_fails_first_witness :
  fst (run env_empty (svc_const (inr (one_choice (Some "limerick")))))
    = Err OpenAIError /\
  snd (run env_empty (svc_const (inr (one_choice (Some "limerick")))))
    = [EvGetenv KEY; EvGetenv KEY] /\
  requests_of (snd (run env_empty (svc_const (inr (one_choice (Some "limerick"))))))
    = [] /\
  stdout_of (snd (run env_empty (svc_const (inr (one_choice (Some "limerick"))))))
    = EmptyString.
Proof.
  apply missing_key_fails_first. reflexivity.
Defined.

(** C5: with the credential set and a service that returns a completion
    with at least one choice, the script ends normally and standard output
    is not empty. *)
Theorem success_prints_nonempty (env : environ) (svc : service) (k : string)
    (cc : chat_completion) :
  env KEY = Some k -> svc k create_kwargs = inr cc -> choices cc <> [] ->
  fst (run env svc) = Ok tt /\ stdout_of (snd (run env svc)) <> EmptyString.
Proof.
  intros Hk Hs Hc. run_key Hk. rewrite Hs.
  destruct (choices cc) as [ | ch rest]; [contradiction | ].
  simpl. rewrite append_EmptyString_r. split; [reflexivity | ].
  apply newline_nonempty.
Qed.

Lemma success_prints_nonempty_witness :
  fst (run (env_with "sk-test") (svc_const (inr (one_choice (Some "limerick")))))
    = Ok tt /\
  stdout_of (snd (run (env_with "sk-test")
                 (svc_const (inr (one_choice (Some "limerick"))))))
    <> EmptyString.
Proof.
  apply (success_prints_nonempty (env_with "sk-test")
           (svc_const (inr (one_choice (Some "limerick")))) "sk-test"
           (one_choice (Some "limerick"))).
  - reflexivity.
  - reflexivity.
  - discriminate.
Defined.

(** C6 as stated fails: an invocation with [OPENAI_API_KEY] unset issues
    no request at all, not exactly one. *)
Lemma one_request_counterexample :
  ~ (forall env svc, exists k,
       requests_of (snd (run env svc)) = [(k, spec_kwargs)]).
Proof.
  intros Hc.
  destruct (Hc env_empty (svc_const (inr (one_choice None)))) as [k Hk].
  discriminate Hk.
Qed.

(** C6 (amended): an invocation with [OPENAI_API_KEY] set to [k] issues
    exactly one request, with credential [k] and the keyword arguments
    [model="gpt-4o"] and the two-message list and no other; with the
    variable unset it issues none. *)
Theorem one_request_when_key_set (env : environ) (svc : service) :
  requests_of (snd (run env svc)) =
    match env KEY with
    | Some k => [(k, spec_kwargs)]
    | None => []
    end.
Proof.
  destruct (env KEY) as [k | ] eqn:H.
  - run_key H. rewrite create_kwargs_spec.
    destruct (svc k spec_kwargs) as [e | [[ | ch rest]]]; reflexivity.
  - rewrite (run_no_key _ _ H). reflexivity.
Qed.

(** C7: when the call fails, the SDK's error escapes unhandled: the
    outcome is that error, the process status is 1, exactly one request was
    issued (no retry by the script) and nothing was written to standard
    output. *)
Theorem call_failure_propagates (env : environ) (svc : service) (k : string)
    (e : api_error) :
  env KEY = Some k -> svc k create_kwargs = inl e ->
  fst (run env svc) = Err (APIError e) /\
  exit_code (fst (run env svc)) = 1 /\
  requests_of (snd (run env svc)) = [(k, create_kwargs)] /\
  stdout_of (snd (run env svc)) = EmptyString.
Proof.
  intros Hk He. run_key Hk. rewrite He. repeat split.
Qed.

Lemma call_failure_propagates_witness :
  fst (run (env_with "sk-test") (svc_const (inl AuthenticationError)))
    = Err (APIError AuthenticationError) /\
  exit_code (fst (run (env_with "sk-test") (svc_const (inl AuthenticationError))))
    = 1 /\
  requests_of (snd (run (env_with "sk-test") (svc_const (inl AuthenticationError))))
    = [("sk-test", create_kwargs)] /\
  stdout_of (snd (run (env_with "sk-test") (svc_const (inl AuthenticationError))))
    = EmptyString.
Proof.
  apply call_failure_propagates; reflexivity.
Defined.

(** C8: the variable is read once, and its value, whatever string it is,
    is passed unchanged as the request's credential: two runs whose
    services answer alike behave alike up to the credential they send. *)
Theorem key_passed_unchecked (env1 env2 : environ) (svc1 svc2 : service)
    (k1 k2 : string) :
  env1 KEY = Some k1 -> env2 KEY = Some k2 ->
  svc1 k1 create_kwargs = svc2 k2 create_kwargs ->
  getenv_count KEY (snd (run env1 svc1)) = 1 /\
  requests_of (snd (run env1 svc1)) = [(k1, create_kwargs)] /\
  fst (run env1 svc1) = fst (run env2 svc2) /\
  map erase_key (snd (run env1 svc1)) = map erase_key (snd (run env2 svc2)).
Proof.
  intros H1 H2 Hs. run_key H1. run_key H2. rewrite <- Hs.
  destruct (svc1 k1 create_kwargs) as [e | [[ | ch rest]]];
    repeat split.
Qed.

Lemma key_passed_unchecked_witness :
  getenv_count KEY
    (snd (run (env_with EmptyString) (svc_const (inr (one_choice (Some "x")))))) = 1 /\
  requests_of
    (snd (run (env_with EmptyString) (svc_const (inr (one_choice (Some "x"))))))
    = [(EmptyString, create_kwargs)] /\
  fst (run (env_with EmptyString) (svc_const (inr (one_choice (Some "x"))))) =
  fst (run (env_with "sk-test") (svc_const (inr (one_choice (Some "x"))))) /\
  map erase_key
    (snd (run (env_with EmptyString) (svc_const (inr (one_choice (Some "x")))))) =
  map erase_key
    (snd (run (env_with "sk-test") (svc_const (inr (one_choice (Some "x")))))).
Proof.
  apply (key_passed_unchecked (env_with EmptyString) (env_with "sk-test")
           (svc_const (inr (one_choice (Some "x"))))
           (svc_const (inr (one_choice (Some "x")))) EmptyString "sk-test");
    reflexivity.
Defined.

(** C9: a completion with no choices makes [choices[0]] raise
    [IndexError]; nothing is written to standard output. *)
Theorem empty_choices_index_error (env : environ) (svc : service) (k : string)
    (cc : chat_completion) :
  env KEY = Some k -> svc k create_kwargs = inr cc -> choices cc = [] ->
  fst (run env svc) = Err IndexError /\
  exit_code (fst (run env svc)) = 1 /\
  stdout_of (snd (run env svc)) = EmptyString.
Proof.
  intros Hk Hs Hc. run_key Hk. rewrite Hs, Hc. repeat split.
Qed.

Lemma empty_choices_index_error_witness :
  fst (run (env_with "sk-test") (svc_const (inr (mk_chat_completion []))))
    = Err IndexError /\
  exit_code (fst (run (env_with "sk-test") (svc_const (inr (mk_chat_completion [])))))
    = 1 /\
  stdout_of (snd (run (env_with "sk-test") (svc_const (inr (mk_chat_completion [])))))
    = EmptyString.
Proof.
  apply (empty_choices_index_error (env_with "sk-test")
           (svc_const (inr (mk_chat_completion []))) "sk-test"
           (mk_chat_completion [])); reflexivity.
Defined.

(** C10: a first choice whose content is [None] does not make the script
    fail: it ends normally and prints the text [None] and a newline. *)
Theorem none_content_prints_None (env : environ) (svc : service) (k : string)
    (cc : chat_completion) (ch : choice) (rest : list choice) :
  env KEY = Some k -> svc k create_kwargs = inr cc ->
  choices cc = ch :: rest -> content (message ch) = None ->
  fst (run env svc) = Ok tt /\
  stdout_of (snd (run env svc)) = String.append "None" newline.
Proof.
  intros Hk Hs Hc Hm. run_key Hk. rewrite Hs, Hc, Hm. simpl.
  split; reflexivity.
Qed.

Lemma none_content_prints_None_witness :
  fst (run (env_with "sk-test") (svc_const (inr (one_choice None)))) = Ok tt /\
  stdout_of (snd (run (env_with "sk-test") (svc_const (inr (one_choice None)))))
    = String.append "None" newline.
Proof.
  apply (none_content_prints_None (env_with "sk-test")
           (svc_const (inr (one_choice None))) "sk-test" (one_choice None)
           (mk_choice (mk_chat_message None)) []); reflexivity.
Defined.

(** ** Further properties of the script *)

(** The script ends normally exactly when the key is set and the service
    answers the request with a completion that has at least one choice. *)
Theorem success_iff (env : environ) (svc : service) :
  fst (run env svc) = Ok tt <->
  exists k cc ch rest,
    env KEY = Some k /\ svc k create_kwargs = inr cc /\ choices cc = ch :: rest.
Proof.
  split.
  - destruct (env KEY) as [k | ] eqn:H.
    + run_key H. destruct (svc k create_kwargs) as [e | cc] eqn:Hs;
        [discriminate | ].
      destruct (choices cc) as [ | ch rest] eqn:Hc; [discriminate | ].
      intros _. exists k, cc, ch, rest. auto.
    + rewrite (run_no_key _ _ H). discriminate.
  - intros (k & cc & ch & rest & Hk & Hs & Hc).
    run_key Hk. rewrite Hs, Hc. reflexivity.
Qed.

(** The environment read is the first effect of every run, and standard
    output is only ever written as the last effect, after the request has
    been issued. *)
Theorem effects_order (env : environ) (svc : service) :
  hd_error (snd (run env svc)) = Some (EvGetenv KEY) /\
  forall tr1 s tr2,
    snd (run env svc) = tr1 ++ EvStdout s :: tr2 ->
    tr2 = [] /\ exists k, In (EvRequest k create_kwargs) tr1.
Proof.
  destruct (env KEY) as [k | ] eqn:H.
  - run_key H. destruct (svc k create_kwargs) as [e | [[ | ch rest]]];
      (split; [reflexivity | intros tr1 s tr2 Ht]);
      destruct tr1 as [ | a [ | b [ | c tr1]]]; simpl in Ht;
      inversion Ht; subst;
      try (destruct tr1; discriminate).
    split; [reflexivity | exists k; simpl; auto].
  - rewrite (run_no_key _ _ H). split; [reflexivity | ].
    intros tr1 s tr2 Ht.
    destruct tr1 as [ | a [ | b [ | c tr1]]]; simpl in Ht;
      inversion Ht; destruct tr1; discriminate.
Qed.

End Basic.
